(** * Background service worker of the recorder extension
    (examples/recorder-crx/src/background.ts), shallow embedding.

    The module state of background.ts ([crxAppPromise], [attachedTabIds],
    [currentMode], [language], [sidepanel], [lastModeChangeTime],
    [tabAttachTimes]) is a record threaded through a small
    state / trace / exception monad.  Calls to the host platform (the chrome API),
    to the automation engine (playwright-crx) and to the telemetry backend are
    recorded as effects in a trace; their outcomes are read from an
    environment record [Env].  The selector attribute held by the engine
    (playwright.selectors) is part of the state, since the file writes it. *)

From Stdlib Require Import ZArith Ascii String.
From stdpp Require Import base gmap sets list strings.

(** ** Data model *)

(** [type CrxMode = Mode | 'detached'] *)
Inductive CrxMode :=
| MNone | MStandby | MRecording | MAssertingText | MAssertingVisibility
| MAssertingValue | MAssertingSnapshot | MInspecting | MDetached.

#[global] Instance CrxMode_eq_dec : EqDecision CrxMode.
Proof. solve_decision. Defined.

(** [const stoppedModes: CrxMode[] = ['none', 'standby', 'detached']] *)
Definition stoppedModes : list CrxMode := [MNone; MStandby; MDetached].

(** [const recordingModes: CrxMode[] = ['recording', 'assertingText', ...]] *)
Definition recordingModes : list CrxMode :=
  [MRecording; MAssertingText; MAssertingVisibility; MAssertingValue;
   MAssertingSnapshot].

(** [Array.prototype.includes] *)
Definition includes (l : list CrxMode) (m : CrxMode) : bool :=
  existsb (fun x => bool_decide (x = m)) l.

(** State of the promise memoised in [crxAppPromise]. *)
Inductive PromiseState := Resolved | Rejected.

(** Module-level variables of background.ts, plus the engine's
    test-id attribute (written by [setTestIdAttributeName]). *)
Record St := mkSt {
  crxAppPromise : option PromiseState;
  attachedTabIds : gset Z;
  currentMode : option CrxMode;
  language : option string;
  sidepanel : bool;
  lastModeChangeTime : option Z;
  tabAttachTimes : gmap Z Z;
  testIdAttribute : option string
}.

(** Initial values of the module variables. *)
Definition initSt : St :=
  mkSt None ∅ None None true None ∅ None.

Definition set_crxAppPromise (p : option PromiseState) (s : St) : St :=
  mkSt p (attachedTabIds s) (currentMode s) (language s) (sidepanel s)
    (lastModeChangeTime s) (tabAttachTimes s) (testIdAttribute s).
Definition set_attachedTabIds (a : gset Z) (s : St) : St :=
  mkSt (crxAppPromise s) a (currentMode s) (language s) (sidepanel s)
    (lastModeChangeTime s) (tabAttachTimes s) (testIdAttribute s).
Definition set_currentMode (m : option CrxMode) (s : St) : St :=
  mkSt (crxAppPromise s) (attachedTabIds s) m (language s) (sidepanel s)
    (lastModeChangeTime s) (tabAttachTimes s) (testIdAttribute s).
Definition set_language (l : option string) (s : St) : St :=
  mkSt (crxAppPromise s) (attachedTabIds s) (currentMode s) l (sidepanel s)
    (lastModeChangeTime s) (tabAttachTimes s) (testIdAttribute s).
Definition set_sidepanel (b : bool) (s : St) : St :=
  mkSt (crxAppPromise s) (attachedTabIds s) (currentMode s) (language s) b
    (lastModeChangeTime s) (tabAttachTimes s) (testIdAttribute s).
Definition set_tabAttachTimes (m : gmap Z Z) (s : St) : St :=
  mkSt (crxAppPromise s) (attachedTabIds s) (currentMode s) (language s)
    (sidepanel s) (lastModeChangeTime s) m (testIdAttribute s).
Definition set_testIdAttribute (v : option string) (s : St) : St :=
  mkSt (crxAppPromise s) (attachedTabIds s) (currentMode s) (language s)
    (sidepanel s) (lastModeChangeTime s) (tabAttachTimes s) v.

(** Telemetry events, with the properties the claims look at. *)
Inductive Telemetry :=
| RecorderAttached (tabId : Z)
| RecorderDetached (tabId : Z) (session_duration : Z).

(** Observable calls made by the file. *)
Inductive Effect :=
| SetTitle (title : string) (tabId : Z)
| SetBadgeText (text : string) (tabId : Z)
| SetBadgeTextColor (color : string) (tabId : Z)
| SetBadgeBackgroundColor (color : string) (tabId : Z)
| SidePanelOpen (windowId : Z)
| ActionDisable
| ActionEnable
| StorageGet
| CrxStart
| AddListener (event : string)
| SetTestIdAttribute (v : option string)
| RecorderShow (mode : CrxMode) (lang : option string) (window_type : string)
| CrxAttach (tabId : Z)
| RecorderSetMode (mode : CrxMode)
| CrxNewPage
| TabsGet (tabId : Z)
| Capture (ev : Telemetry).

(** Exceptions (rejected promises). *)
Inductive Exn := TypeError | StorageError | StartError | EngineError | TabsGetError.

(** Outcomes of the asynchronous calls to the host and to the engine. *)
Record Env := mkEnv {
  stored_testIdAttributeName : option string;
  stored_targetLanguage : option string;
  storage_get_ok : bool;
  start_ok : bool;
  recorder_isHidden : bool;
  recorder_mode : CrxMode;
  show_ok : bool;
  attach_ok : bool;
  setMode_ok : bool;
  newPage_ok : bool;
  now : Z;
  tabs_get_ok : bool
}.

(** ** A state / trace / exception monad for the async functions *)

Definition M (A : Type) : Type := St -> St * list Effect * (A + Exn).

Definition ret {A} (a : A) : M A := fun s => (s, [], inl a).
Definition throw {A} (e : Exn) : M A := fun s => (s, [], inr e).
Definition bind {A B} (m : M A) (f : A -> M B) : M B := fun s =>
  match m s with
  | (s1, t1, inl a) => match f a s1 with (s2, t2, r) => (s2, t1 ++ t2, r) end
  | (s1, t1, inr e) => (s1, t1, inr e)
  end.
Definition get : M St := fun s => (s, [], inl s).
Definition modify (f : St -> St) : M unit := fun s => (f s, [], inl tt).
Definition emit (e : Effect) : M unit := fun s => (s, [e], inl tt).

#[global] Instance M_ret : MRet M := fun A a => ret a.
#[global] Instance M_bind : MBind M := fun A B f m => bind m f.

(** [try { body } catch { handler } finally { fin }] *)
Definition try_catch_finally {A} (body : M A) (handler : Exn -> M A)
    (fin : M unit) : M A := fun s =>
  match body s with
  | (s1, t1, r1) =>
      match (match r1 with inl a => (s1, [], inl a) | inr e => handler e s1 end) with
      | (s2, t2, r2) =>
          match fin s2 with
          | (s3, t3, inl _) => (s3, t1 ++ t2 ++ t3, r2)
          | (s3, t3, inr e) => (s3, t1 ++ t2 ++ t3, inr e)
          end
      end
  end.

(** ** Toolbar indicator: [changeAction] *)

(** [async function changeAction(tabId, mode?)].  A mode string is never
    falsy, so [!mode] holds exactly when the argument is absent; the
    host calls of [Promise.all([...]).catch(() => {})] are issued in order
    and their failures discarded. *)
Definition changeAction (tabId : Z) (mode : option CrxMode) : M unit :=
  s ← get ;
  mode ← (match mode with
           | None =>
               ret (if bool_decide (tabId ∈ attachedTabIds s)
                    then currentMode s else Some MDetached)
           | Some m =>
               (if bool_decide (m ≠ MDetached)
                then modify (set_currentMode (Some m)) else ret tt) ;;
               ret (Some m)
           end) ;
  match mode with
  | Some m =>
      if includes stoppedModes m then
        emit (SetTitle (if bool_decide (m = MNone) then "Stopped" else "Record") tabId) ;;
        emit (SetBadgeText "" tabId)
      else
        let '(text, title, color, bgColor) :=
          if includes recordingModes m
          then ("REC", "Recording", "white", "darkred")
          else ("INS", "Inspecting", "white", "dodgerblue") in
        emit (SetTitle title tabId) ;;
        emit (SetBadgeText text tabId) ;;
        emit (SetBadgeTextColor color tabId) ;;
        emit (SetBadgeBackgroundColor bgColor tabId)
  | None =>
      emit (SetTitle "Record" tabId) ;;
      emit (SetBadgeText "" tabId)
  end.

(** ** Engine session manager: [getCrxApp] *)

(** JavaScript truthiness of a [string | undefined]. *)
Definition truthy (v : option string) : bool :=
  match v with Some x => bool_decide (x ≠ "") | None => false end.

(** [async function setTestIdAttributeName(testIdAttributeName)]: its body
    runs synchronously up to completion when called. *)
Definition setTestIdAttributeName (v : option string) : M unit :=
  emit (SetTestIdAttribute v) ;; modify (set_testIdAttribute v).

(** [async function getCrxApp()], for a caller that runs to completion
    without another caller interleaving (the interleaved case is modelled in
    [Concurrent] below).  [crxAppPromise] is assigned the promise returned by
    [crx.start().then(...)] before the [then] callback runs; the callback
    registers the four listeners and applies the persisted settings. *)
Definition getCrxApp (env : Env) : M unit :=
  s ← get ;
  match crxAppPromise s with
  | Some Resolved => ret tt
  | Some Rejected => throw StartError
  | None =>
      emit StorageGet ;;
      if negb (storage_get_ok env) then throw StorageError else
      let testIdAttributeName := stored_testIdAttributeName env in
      let targetLanguage := stored_targetLanguage env in
      emit CrxStart ;;
      modify (set_crxAppPromise (Some (if start_ok env then Resolved else Rejected))) ;;
      if negb (start_ok env) then throw StartError else
      emit (AddListener "hide") ;;
      emit (AddListener "modechanged") ;;
      emit (AddListener "attached") ;;
      emit (AddListener "detached") ;;
      (if negb (truthy testIdAttributeName)
       then setTestIdAttributeName testIdAttributeName else ret tt) ;;
      s ← get ;
      (if negb (truthy (language s)) && truthy targetLanguage
       then modify (set_language targetLanguage) else ret tt)
  end.

(** ** Engine lifecycle listeners *)

(** [crxApp.addListener('attached', async ({ tabId }) => ...)].  The
    engine's current mode and the current time come from [env]; the awaited
    [chrome.tabs.get(tabId)] rejects (a tab already closed) when
    [tabs_get_ok env] is false, and its rejection is not caught. *)
Definition on_attached (env : Env) (tabId : Z) : M unit :=
  s ← get ;
  modify (set_attachedTabIds ({[tabId]} ∪ attachedTabIds s)) ;;
  changeAction tabId (Some (recorder_mode env)) ;;
  emit (TabsGet tabId) ;;
  (if tabs_get_ok env then ret tt else throw TabsGetError) ;;
  emit (Capture (RecorderAttached tabId)).

(** [crxApp.addListener('detached', async tabId => ...)].  Both readings of
    [Date.now()] in [session_duration] are taken at [now env]; a missing or
    zero timestamp falls back to [Date.now()] through [||]. *)
Definition on_detached (env : Env) (tabId : Z) : M unit :=
  s ← get ;
  modify (set_attachedTabIds (attachedTabIds s ∖ {[tabId]})) ;;
  changeAction tabId (Some MDetached) ;;
  s ← get ;
  let attachedAt :=
    match tabAttachTimes s !! tabId with
    | Some t => if bool_decide (t = 0%Z) then now env else t
    | None => now env
    end in
  emit (Capture (RecorderDetached tabId (now env - attachedAt))) ;;
  s ← get ;
  modify (set_tabAttachTimes (delete tabId (tabAttachTimes s))).

(** ** Attach flow *)

(** The fields of [chrome.tabs.Tab] read by [attach]. *)
Record Tab := mkTab { tab_id : option Z; windowId : Z }.

(** [async function attach(tab, mode?)]. *)
Definition attach (env : Env) (tab : Tab) (mode : option CrxMode) : M unit :=
  s ← get ;
  match tab_id tab with
  | None => ret tt
  | Some tabId =>
      if bool_decide (tabId = 0%Z)
         || (bool_decide (tabId ∈ attachedTabIds s) && bool_decide (mode = None))
      then ret tt else
      (if sidepanel s then emit (SidePanelOpen (windowId tab)) else ret tt) ;;
      emit ActionDisable ;;
      getCrxApp env ;;
      try_catch_finally
        (s ← get ;
         (if recorder_isHidden env then
            emit (RecorderShow (default MRecording mode) (language s)
                    (if sidepanel s then "sidepanel" else "popup")) ;;
            (if show_ok env then ret tt else throw EngineError)
          else ret tt) ;;
         emit (CrxAttach tabId) ;;
         (if attach_ok env then ret tt else throw EngineError) ;;
         match mode with
         | Some m =>
             emit (RecorderSetMode m) ;;
             (if setMode_ok env then ret tt else throw EngineError)
         | None => ret tt
         end)
        (fun _ =>
           emit CrxNewPage ;;
           (if newPage_ok env then ret tt else throw EngineError))
        (emit ActionEnable)
  end.

(** ** Settings sync listener *)

(** The argument of [chrome.storage.sync.onChanged]: an entry per changed
    key ([None] when the key is absent), carrying its [newValue] ([None] for
    [undefined]). *)
Record StorageChanges := mkChanges {
  ch_testIdAttributeName : option (option string);
  ch_targetLanguage : option (option string);
  ch_sidepanel : option (option bool)
}.

(** [chrome.storage.sync.onChanged.addListener(async ({ testIdAttributeName,
    targetLanguage, sidepanel: sidepanelChange }) => ...)].  Reading
    [newValue] of an absent entry raises a [TypeError]. *)
Definition onStorageChanged (ch : StorageChanges) : M unit :=
  (match ch_testIdAttributeName ch with
   | Some nv => setTestIdAttributeName nv
   | None => ret tt
   end) ;;
  (match ch_targetLanguage ch with
   | Some nv => modify (set_language nv)
   | None => ret tt
   end) ;;
  match ch_sidepanel ch with
  | None => throw TypeError
  | Some (Some b) => modify (set_sidepanel b)
  | Some None => ret tt
  end.

(** ** Storage-state cookie filter of [saveStorageState] *)

Record Cookie := mkCookie {
  cookie_name : string;
  domain : string;
  path : string;
  secure : bool
}.

(** The fields of a parsed [URL] read by the filter. *)
Record URL := mkURL { protocol : string; hostname : string; pathname : string }.

(** [String.prototype.startsWith]: [s.startsWith(p)]. *)
Fixpoint startsWith (s p : string) {struct p} : bool :=
  match p, s with
  | EmptyString, _ => true
  | String a p', String b s' => bool_decide (a = b) && startsWith s' p'
  | String _ _, EmptyString => false
  end.

(** [String.prototype.endsWith]: [s.endsWith(suf)]. *)
Fixpoint endsWith (s suf : string) : bool :=
  bool_decide (s = suf) ||
  match s with
  | EmptyString => false
  | String _ s' => endsWith s' suf
  end.

(** The [for (const parsedURL of parsedURLs)] loop of the filter callback,
    with its [continue]s and [return true]. *)
Fixpoint urlLoop (c : Cookie) (parsedURLs : list URL) : bool :=
  match parsedURLs with
  | [] => false
  | parsedURL :: rest =>
      let domain := if startsWith (domain c) "." then domain c
                    else String.append "." (domain c) in
      if negb (endsWith (String.append "." (hostname parsedURL)) domain)
      then urlLoop c rest
      else if negb (startsWith (pathname parsedURL) (path c))
      then urlLoop c rest
      else if bool_decide (protocol parsedURL ≠ "https:")
              && bool_decide (hostname parsedURL ≠ "localhost") && secure c
      then urlLoop c rest
      else true
  end.

(** [const cookies = allCookies.filter(c => ...)]. *)
Definition filterCookies (parsedURLs : list URL) (allCookies : list Cookie)
    : list Cookie :=
  List.filter
    (fun c => match parsedURLs with [] => true | _ => urlLoop c parsedURLs end)
    allCookies.

(** ** Concurrent callers of [getCrxApp] *)

Module Concurrent.

(** Where a call of [getCrxApp] is suspended.  [h] names the promise the
    call awaits; the session started by the [n]-th call of [crx.start()]
    is named [n]. *)
Inductive Pc :=
| AtStart
| AwaitingSettings
| AwaitingSession (h : nat)
| Returned (h : nat).

Record World := mkWorld {
  crxAppPromise : option nat;
  starts : nat;
  callers : list Pc
}.

(** Runs one caller from its suspension point to the next one:
    [if (!crxAppPromise)] then [await chrome.storage.sync.get(...)];
    after it, [crxAppPromise = crx.start().then(...)] followed by
    [return await crxAppPromise]. *)
Definition resume (p : option nat) (n : nat) (pc : Pc) : option nat * nat * Pc :=
  match pc with
  | AtStart =>
      match p with
      | Some h => (p, n, AwaitingSession h)
      | None => (p, n, AwaitingSettings)
      end
  | AwaitingSettings => (Some n, S n, AwaitingSession n)
  | AwaitingSession h => (p, n, Returned h)
  | Returned h => (p, n, Returned h)
  end.

(** The event loop resumes the callers in the order of [schedule]. *)
Fixpoint run (schedule : list nat) (w : World) : World :=
  match schedule with
  | [] => w
  | i :: rest =>
      match callers w !! i with
      | None => run rest w
      | Some pc =>
          let '(p, n, pc') := resume (crxAppPromise w) (starts w) pc in
          run rest (mkWorld p n (<[i := pc']> (callers w)))
      end
  end.

(** [k] callers enter [getCrxApp] with no session created yet. *)
Definition init (k : nat) : World := mkWorld None 0 (replicate k AtStart).

End Concurrent.

(** ** Cookie matching in the words of the spec

    "domain suffix match with leading-dot normalization, path-prefix match,
    and a secure-cookie/HTTPS-or-localhost check" (section 4.5), to be
    compared with [urlLoop]. *)

(** Leading-dot normalization of a cookie domain. *)
Definition dotted (d : string) : string :=
  match d with
  | String "."%char _ => d
  | _ => String "."%char d
  end.

Definition spec_cookie_matches (c : Cookie) (u : URL) : Prop :=
  (exists pre, String "."%char (hostname u) = String.append pre (dotted (domain c))) /\
  (exists rest, pathname u = String.append (path c) rest) /\
  (secure c = true -> protocol u = "https:" \/ hostname u = "localhost").

(** The example of section 8 of the spec. *)
Definition example_url : URL := mkURL "https:" "example.com" "/app".
Definition cookie_root_secure : Cookie := mkCookie "sid" "example.com" "/" true.
Definition cookie_other : Cookie := mkCookie "sid" "other.com" "/" false.
Definition cookie_admin : Cookie := mkCookie "sid" "example.com" "/admin" false.

(** ** Mode-change listener *)

Definition set_lastModeChangeTime (t : option Z) (s : St) : St :=
  mkSt (crxAppPromise s) (attachedTabIds s) (currentMode s) (language s)
    (sidepanel s) t (tabAttachTimes s) (testIdAttribute s).

(** Runs [f] on each element in turn. *)
Fixpoint forM_ {A} (f : A -> M unit) (l : list A) : M unit :=
  match l with
  | [] => ret tt
  | x :: l' => f x ;; forM_ f l'
  end.

(** The telemetry events of the 'modechanged' listener. *)
Inductive ModeTelemetry :=
| ModeChanged (mode : CrxMode) (previous_mode : option CrxMode)
    (duration_in_previous_mode : Z)
| RecordingStarted (from_mode : option CrxMode)
| RecordingStopped (to_mode : CrxMode) (duration : Z).

(** [crxApp.recorder.addListener('modechanged', async ({ mode }) => ...)].
    [Promise.all([...attachedTabIds].map(tabId => changeAction(tabId, mode)))]
    issues every [changeAction] up to its host calls before awaiting, so the
    calls run one after the other; the tabs are visited in the order of
    [elements] (the JavaScript set iterates in insertion order, which only
    reorders the badge calls).  The telemetry events are returned beside the
    call trace; every [Date.now()] reads [now env]. *)
Definition on_modechanged (env : Env) (mode : CrxMode) (s : St)
    : St * list Effect * list ModeTelemetry :=
  match forM_ (fun tabId => changeAction tabId (Some mode))
          (elements (attachedTabIds s)) s with
  | (s1, tr, _) =>
      let t := now env in
      let since :=
        match lastModeChangeTime s1 with
        | Some x => if bool_decide (x = 0%Z) then t else x
        | None => t
        end in
      let changed :=
        ModeChanged mode (currentMode s1)
          (match currentMode s1 with Some _ => t - since | None => 0 end) in
      let wasRecording :=
        match currentMode s1 with
        | Some m => includes recordingModes m
        | None => false
        end in
      let isRecording := includes recordingModes mode in
      let recEvents :=
        if negb wasRecording && isRecording then [RecordingStarted (currentMode s1)]
        else if wasRecording && negb isRecording then [RecordingStopped mode (t - since)]
        else [] in
      (set_lastModeChangeTime (Some t) s1, tr, changed :: recEvents)
  end.

(** ** Keyboard commands *)


(** ** Save flow: [doSave] *)





(** ** Script telemetry of [saveScript] *)

(** [s.split(c)] for a one-character separator [c]. *)
Fixpoint split_on (c : ascii) (s : string) : list string :=
  match s with
  | EmptyString => [EmptyString]
  | String a s' =>
      let rest := split_on c s' in
      if bool_decide (a = c) then EmptyString :: rest
      else match rest with
           | h :: t => String a h :: t
           | [] => [String a EmptyString]
           end
  end.

(** Occurrences of the character [c] in [s]. *)
Fixpoint count_char (c : ascii) (s : string) : nat :=
  match s with
  | EmptyString => 0
  | String a s' => (if bool_decide (a = c) then 1 else 0) + count_char c s'
  end.

(** [linesOfCode: params.code.split('\n').length] *)
Definition linesOfCode (code : string) : nat :=
  length (split_on "010"%char code).

(** [fileExtension: params.suggestedName.split('.').pop()]; the split is
    never empty, so [pop] returns a string. *)
Definition fileExtension (suggestedName : string) : string :=
  default EmptyString (last (split_on "."%char suggestedName)).

(** ** Concrete environments *)

(** Every host and engine call succeeds; [testId] and [lang] are the values
    persisted under [testIdAttributeName] and [targetLanguage]; the clock
    reads [t]. *)
Definition env_with (testId lang : option string) (t : Z) : Env :=
  mkEnv testId lang true true true MRecording true true true true t true.

Definition env_at (t : Z) : Env := env_with None None t.

(** [chrome.storage.sync.get] rejects. *)
Definition env_storage_down : Env :=
  mkEnv None None false true true MRecording true true true true 0 true.

(** * Properties *)

Example changeAction_rec :
  changeAction 3 (Some MRecording) initSt =
  (set_currentMode (Some MRecording) initSt,
   [SetTitle "Recording" 3; SetBadgeText "REC" 3; SetBadgeTextColor "white" 3;
    SetBadgeBackgroundColor "darkred" 3], inl tt).
Proof. reflexivity. Qed.

Ltac unfold_M :=
  unfold mbind, mret, M_bind, M_ret, bind, ret, throw, get, modify, emit in *.


(** C5: with no explicit mode, a tab outside [AttachedTabSet] resolves to
    ['detached'], so its badge is cleared with title "Record"; and whenever
    the resolved mode ([mode ?? (tabId ∈ AttachedTabSet ? currentMode :
    'detached')]) is one of none / standby / detached, the calls made are
    exactly: title "Stopped" for none and "Record" otherwise, then an empty
    badge text. *)
Theorem changeAction_stopped_clears (s : St) (tabId : Z) :
  (tabId ∉ attachedTabIds s ->
   changeAction tabId None s =
     (s, [SetTitle "Record" tabId; SetBadgeText "" tabId], inl tt)) /\
  (forall (mode : option CrxMode) (m : CrxMode),
     match mode with
     | Some m' => Some m'
     | None => if bool_decide (tabId ∈ attachedTabIds s)
               then currentMode s else Some MDetached
     end = Some m ->
     m ∈ [MNone; MStandby; MDetached] ->
     (changeAction tabId mode s).1.2 =
       [SetTitle (if bool_decide (m = MNone) then "Stopped" else "Record") tabId;
        SetBadgeText "" tabId]).
Proof.
  split.
  - intros Hn. unfold changeAction; unfold_M; cbn.
    rewrite bool_decide_false by exact Hn. reflexivity.
  - intros mode m Hres Hm.
    apply list_elem_of_In in Hm; cbn in Hm.
    destruct mode as [m'|]; unfold changeAction; unfold_M; cbn.
    + injection Hres as <-.
      destruct Hm as [<-|[<-|[<-|[]]]]; reflexivity.
    + rewrite Hres.
      destruct Hm as [<-|[<-|[<-|[]]]]; reflexivity.
Qed.

Lemma changeAction_stopped_clears_witness :
  (((5 : Z) ∉ attachedTabIds initSt) /\
   changeAction 5 None initSt =
     (initSt, [SetTitle "Record" 5; SetBadgeText "" 5], inl tt)) /\
  (changeAction 5 (Some MNone) initSt).1.2 =
     [SetTitle "Stopped" 5; SetBadgeText "" 5].
Proof.
  split; [split|].
  - cbn. set_solver.
  - apply (proj1 (changeAction_stopped_clears initSt 5)). cbn. set_solver.
  - apply (proj2 (changeAction_stopped_clears initSt 5) (Some MNone) MNone).
    + reflexivity.
    + apply list_elem_of_In. cbn. left. reflexivity.
Defined.

(** C6: with an explicit mode, [changeAction] leaves the whole module state
    unchanged when the mode is 'detached', and otherwise changes exactly
    [currentMode], to that mode. *)
Theorem changeAction_explicit_mode_frame (s : St) (tabId : Z) (m : CrxMode) :
  (changeAction tabId (Some m) s).1.1 =
    (if bool_decide (m = MDetached) then s else set_currentMode (Some m) s).
Proof.
  unfold changeAction; unfold_M; cbn.
  destruct m; reflexivity.
Qed.

(** C8: [attach] returns at once, touching no state and making no call,
    when the tab has no identifier or when it is already attached and no
    mode is requested; in particular a second mode-less call for an attached
    tab changes nothing. *)
Theorem attach_noop (env : Env) (tab : Tab) (mode : option CrxMode) (s : St) :
  (tab_id tab = None \/
   exists i, tab_id tab = Some i /\ i ∈ attachedTabIds s /\ mode = None) ->
  attach env tab mode s = (s, [], inl tt).
Proof.
  intros [Hid | (i & Hid & Hin & ->)]; unfold attach; unfold_M; cbn; rewrite Hid.
  - reflexivity.
  - rewrite (bool_decide_true (i ∈ attachedTabIds s)) by exact Hin.
    rewrite orb_true_r. reflexivity.
Qed.

Lemma attach_noop_witness :
  ((exists i, tab_id (mkTab (Some 4%Z) 2) = Some i /\
     i ∈ attachedTabIds (set_attachedTabIds {[4%Z]} initSt) /\ @None CrxMode = None) /\
   attach (env_at 0) (mkTab (Some 4%Z) 2) None (set_attachedTabIds {[4%Z]} initSt) =
     (set_attachedTabIds {[4%Z]} initSt, [], inl tt)).
Proof.
  assert (H : exists i, tab_id (mkTab (Some 4%Z) 2) = Some i /\
     i ∈ attachedTabIds (set_attachedTabIds {[4%Z]} initSt) /\ @None CrxMode = None).
  { exists 4%Z. split; [reflexivity|]. split; [cbn; set_solver | reflexivity]. }
  split; [exact H|].
  apply (attach_noop (env_at 0) (mkTab (Some 4%Z) 2) None
           (set_attachedTabIds {[4%Z]} initSt)).
  right. exact H.
Defined.

(** C9: with no URL collected from the open pages, the cookie filter keeps
    every cookie. *)
Theorem filterCookies_no_urls (allCookies : list Cookie) :
  filterCookies [] allCookies = allCookies.
Proof.
  unfold filterCookies.
  induction allCookies as [|c rest IH]; cbn; [reflexivity|].
  rewrite IH. reflexivity.
Qed.

(** C10: a settings-change notification with no [sidepanel] entry applies
    the selector-attribute and target-language changes it carries and then
    throws a [TypeError] (reading [newValue] of [undefined]); the sidepanel
    flag is left as it was. *)
Theorem onStorageChanged_no_sidepanel (ch : StorageChanges) (s : St) :
  ch_sidepanel ch = None ->
  match onStorageChanged ch s with
  | (s', t, r) =>
      r = inr TypeError /\
      t = (match ch_testIdAttributeName ch with
           | Some nv => [SetTestIdAttribute nv] | None => [] end) /\
      testIdAttribute s' = (match ch_testIdAttributeName ch with
                            | Some nv => nv | None => testIdAttribute s end) /\
      language s' = (match ch_targetLanguage ch with
                     | Some nv => nv | None => language s end) /\
      sidepanel s' = sidepanel s
  end.
Proof.
  intros Hsp. unfold onStorageChanged, setTestIdAttributeName; unfold_M.
  destruct ch as [ti tl sp]; cbn in *; subst sp.
  destruct ti as [ti|], tl as [tl|]; cbn; repeat split.
Qed.

Lemma onStorageChanged_no_sidepanel_witness :
  ch_sidepanel (mkChanges (Some (Some "data-qa")) (Some (Some "python")) None) = None /\
  match onStorageChanged (mkChanges (Some (Some "data-qa")) (Some (Some "python")) None) initSt with
  | (s', t, r) =>
      r = inr TypeError /\
      t = [SetTestIdAttribute (Some "data-qa")] /\
      testIdAttribute s' = Some "data-qa" /\
      language s' = Some "python" /\
      sidepanel s' = sidepanel initSt
  end.
Proof.
  split; [reflexivity|].
  apply (onStorageChanged_no_sidepanel
           (mkChanges (Some (Some "data-qa")) (Some (Some "python")) None) initSt).
  reflexivity.
Defined.

(** ** Cookie filter *)

Lemma startsWith_spec (s p : string) :
  startsWith s p = true <-> exists q, s = String.append p q.
Proof.
  revert s; induction p as [|a p IH]; intros s; cbn.
  - split; [intros _; exists s; reflexivity | reflexivity].
  - destruct s as [|b s]; cbn.
    + split; [discriminate | intros [q Hq]; discriminate].
    + rewrite andb_true_iff, bool_decide_eq_true, IH.
      split.
      * intros [-> [q ->]]. exists q. reflexivity.
      * intros [q Hq]. injection Hq as -> ->. eauto.
Qed.

Lemma endsWith_spec (s suf : string) :
  endsWith s suf = true <-> exists pre, s = String.append pre suf.
Proof.
  induction s as [|a s IH]; cbn; rewrite orb_true_iff, bool_decide_eq_true.
  - split.
    + intros [<-|H]; [exists ""%string; reflexivity | discriminate].
    + intros [[|b pre] Hpre]; cbv [String.append] in Hpre; [left; congruence | discriminate].
  - rewrite IH. split.
    + intros [<-|[pre ->]].
      * exists ""%string. reflexivity.
      * exists (String a pre). reflexivity.
    + intros [[|b pre] Hpre]; cbv [String.append] in Hpre.
      * left. congruence.
      * right. injection Hpre as -> ->. eauto.
Qed.

Lemma dotted_normalisation (d : string) :
  (if startsWith d "." then d else String.append "." d) = dotted d.
Proof.
  destruct d as [|a d]; [reflexivity|].
  cbn. rewrite andb_true_r.
  case_bool_decide as Ha; [subst; reflexivity|].
  destruct a as [[] [] [] [] [] [] [] []]; try reflexivity; congruence.
Qed.

Lemma urlLoop_cons (c : Cookie) (u : URL) (rest : list URL) :
  urlLoop c (u :: rest) = true <->
  spec_cookie_matches c u \/ urlLoop c rest = true.
Proof.
  cbn [urlLoop]. rewrite dotted_normalisation. unfold spec_cookie_matches.
  change (String.append "." (hostname u)) with (String "."%char (hostname u)).
  destruct (endsWith _ (dotted (domain c))) eqn:Hd; cbn [negb].
  2:{ split; [auto|].
      intros [(Hx & _ & _)|H]; [|exact H].
      apply endsWith_spec in Hx. congruence. }
  destruct (startsWith (pathname u) (path c)) eqn:Hp; cbn [negb].
  2:{ split; [auto|].
      intros [(_ & Hx & _)|H]; [|exact H].
      apply startsWith_spec in Hx. congruence. }
  apply endsWith_spec in Hd. apply startsWith_spec in Hp.
  destruct (bool_decide (protocol u ≠ "https:") && bool_decide (hostname u ≠ "localhost")
            && secure c) eqn:Hs.
  - apply andb_true_iff in Hs as [Hs Hsec]. apply andb_true_iff in Hs as [H1 H2].
    apply bool_decide_eq_true in H1, H2.
    split; [auto|].
    intros [(_ & _ & Hx)|H]; [|exact H].
    destruct (Hx Hsec); contradiction.
  - split; [intros _; left | intros _; reflexivity].
    split; [exact Hd|]. split; [exact Hp|].
    intros Hsec. rewrite Hsec, andb_true_r in Hs.
    destruct (decide (protocol u = "https:")) as [|Hpr]; [left; assumption|].
    destruct (decide (hostname u = "localhost")) as [|Hh]; [right; assumption|].
    rewrite !bool_decide_true in Hs by assumption. discriminate.
Qed.

Lemma urlLoop_spec (c : Cookie) (parsedURLs : list URL) :
  urlLoop c parsedURLs = true <->
  exists u, In u parsedURLs /\ spec_cookie_matches c u.
Proof.
  induction parsedURLs as [|u rest IH].
  - cbn. split; [discriminate | intros (u & [] & _)].
  - rewrite urlLoop_cons, IH. split.
    + intros [Hm | (v & Hv & Hm)]; eauto using in_eq, in_cons.
    + intros (v & [<- | Hv] & Hm); eauto.
Qed.

(** C7 as stated ("retained if and only if some URL matches") fails when no
    URL was collected: the guard [if (!parsedURLs.length) return true] keeps
    a cookie that no URL matches. *)
Lemma filterCookies_iff_counterexample :
  ~ (forall (parsedURLs : list URL) (allCookies : list Cookie) (c : Cookie),
       In c (filterCookies parsedURLs allCookies) <->
       In c allCookies /\ exists u, In u parsedURLs /\ spec_cookie_matches c u).
Proof.
  intros H.
  destruct (proj1 (H [] [cookie_other] cookie_other)) as [_ (u & [] & _)].
  cbn. left. reflexivity.
Qed.

(** C7 (amended): when at least one URL was collected, a cookie is retained
    exactly when some URL matches it by domain suffix (after leading-dot
    normalization), by path prefix, and, for a secure cookie, by an https:
    protocol or the localhost hostname; when no URL was collected, every
    cookie is retained; on https://example.com/app the cookie
    {example.com, /, secure} is kept while {other.com, /} and
    {example.com, /admin} are dropped. *)
Theorem filterCookies_spec :
  (forall (parsedURLs : list URL) (allCookies : list Cookie) (c : Cookie),
     parsedURLs <> [] ->
     (In c (filterCookies parsedURLs allCookies) <->
      In c allCookies /\ exists u, In u parsedURLs /\ spec_cookie_matches c u)) /\
  (forall allCookies : list Cookie, filterCookies [] allCookies = allCookies) /\
  filterCookies [example_url] [cookie_root_secure; cookie_other; cookie_admin] =
    [cookie_root_secure].
Proof.
  split; [|split; [|reflexivity]].
  - intros parsedURLs allCookies c Hne.
    unfold filterCookies. rewrite filter_In.
    destruct parsedURLs as [|u rest]; [contradiction|].
    rewrite urlLoop_spec. reflexivity.
  - intros allCookies. unfold filterCookies.
    induction allCookies as [|c rest IH]; cbn; [reflexivity|].
    rewrite IH. reflexivity.
Qed.

Lemma filterCookies_spec_witness :
  ([example_url] <> [] /\
   (In cookie_root_secure (filterCookies [example_url] [cookie_root_secure]) <->
    In cookie_root_secure [cookie_root_secure] /\
    exists u, In u [example_url] /\ spec_cookie_matches cookie_root_secure u)) /\
  filterCookies [] [cookie_other] = [cookie_other] /\
  filterCookies [example_url] [cookie_root_secure; cookie_other; cookie_admin] =
    [cookie_root_secure].
Proof.
  split; [split|split].
  - discriminate.
  - apply (proj1 filterCookies_spec). discriminate.
  - apply (proj1 (proj2 filterCookies_spec)).
  - apply (proj2 (proj2 filterCookies_spec)).
Defined.

(** ** Session start and listeners *)

Lemma changeAction_shape (tabId : Z) (mode : option CrxMode) (s : St) :
  exists tr, changeAction tabId mode s =
    (match mode with
     | Some m => if bool_decide (m = MDetached) then s else set_currentMode (Some m) s
     | None => s
     end, tr, inl tt).
Proof.
  unfold changeAction; unfold_M; cbn.
  destruct mode as [m|].
  - destruct m; cbn; eexists; reflexivity.
  - destruct (bool_decide (tabId ∈ attachedTabIds s)); [destruct (currentMode s) as [m|]|];
      [destruct m| |]; cbn; eexists; reflexivity.
Qed.

Lemma on_attached_tabAttachTimes (env : Env) (tabId : Z) (s : St) :
  tabAttachTimes (on_attached env tabId s).1.1 = tabAttachTimes s.
Proof.
  unfold on_attached; unfold_M; cbn.
  destruct (changeAction_shape tabId (Some (recorder_mode env))
              (set_attachedTabIds ({[tabId]} ∪ attachedTabIds s) s)) as [tr ->].
  cbn. case_bool_decide; destruct (tabs_get_ok env); reflexivity.
Qed.

(** C2 (code defect): the 'attached' listener never records the attach
    instant in [tabAttachTimes] (no code path writes the map), so the
    'detached' event falls back to [Date.now()] and reports a session
    duration of 0: a tab attached at t = 100 and detached at t = 150 is
    reported with duration 0, not 50. *)
Theorem detached_session_duration_zero :
  (forall (env : Env) (tabId : Z) (s : St),
     tabAttachTimes (on_attached env tabId s).1.1 = tabAttachTimes s) /\
  tabAttachTimes (on_attached (env_at 100) 7 initSt).1.1 !! (7 : Z) = None /\
  (on_detached (env_at 150) 7 (on_attached (env_at 100) 7 initSt).1.1).1.2 =
    [SetTitle "Record" 7; SetBadgeText "" 7; Capture (RecorderDetached 7 0)].
Proof.
  split; [exact on_attached_tabAttachTimes|].
  split; vm_compute; reflexivity.
Qed.

(** C4 (code defect): [if (!testIdAttributeName) setTestIdAttributeName(...)]
    has its test inverted: with "data-qa" persisted and no attribute set, the
    session start never applies it (no [setTestIdAttribute] call, the
    attribute stays unset), while the persisted target language "python" is
    adopted as the claim says. *)
Theorem getCrxApp_persisted_testId_not_applied :
  getCrxApp (env_with (Some "data-qa") (Some "python") 0) initSt =
    (set_language (Some "python") (set_crxAppPromise (Some Resolved) initSt),
     [StorageGet; CrxStart; AddListener "hide"; AddListener "modechanged";
      AddListener "attached"; AddListener "detached"],
     inl tt) /\
  testIdAttribute
    (getCrxApp (env_with (Some "data-qa") (Some "python") 0) initSt).1.1 = None.
Proof. split; vm_compute; reflexivity. Qed.

(** With nothing persisted, the session start calls
    [setTestIdAttribute(undefined)]. *)
Example getCrxApp_nothing_persisted :
  (getCrxApp (env_at 0) initSt).1.2 =
    [StorageGet; CrxStart; AddListener "hide"; AddListener "modechanged";
     AddListener "attached"; AddListener "detached"; SetTestIdAttribute None].
Proof. vm_compute. reflexivity. Qed.

(** ** Attach flow *)

(** Unfolds [attach] past its guard and past [await getCrxApp()], given the
    outcome [Hok] of the session request in the current state. *)
Ltac attach_open Hid Hi Hguard Hok :=
  unfold attach, try_catch_finally; unfold_M; cbn -[getCrxApp];
  rewrite Hid; cbn -[getCrxApp];
  rewrite (bool_decide_false (_ = 0%Z)) by exact Hi; cbn -[getCrxApp];
  try lazymatch goal with
  | |- context [bool_decide (?i ∈ attachedTabIds ?s) && bool_decide (?mode = None)] =>
      let Hg := fresh "Hg" in
      assert (Hg : bool_decide (i ∈ attachedTabIds s) && bool_decide (mode = None) = false)
        by (destruct Hguard as [Hn|Hn];
            [rewrite bool_decide_false by exact Hn; reflexivity
            |rewrite (bool_decide_false (mode = None)) by exact Hn; apply andb_false_r]);
      rewrite Hg
  end;
  rewrite ?andb_false_r; cbn -[getCrxApp];
  lazymatch goal with
  | |- context [sidepanel ?s] =>
      let Hsp := fresh "Hsp" in
      destruct (sidepanel s) eqn:Hsp; cbn -[getCrxApp]; rewrite Hok; cbn
  end.

(** The last element of a trace [l1 ++ x :: l2] whose tail is concrete. *)
Ltac last_concrete :=
  rewrite ?last_cons_cons, ?last_cons, ?last_app_cons; cbn; reflexivity.

(** Once [getCrxApp] has returned the session (created by an earlier call
    or by this one), the [finally] block re-enables the toolbar icon
    whatever the show / attach / setMode / newPage calls do. *)
Lemma attach_enable_after_session (env : Env) (tab : Tab) (mode : option CrxMode)
    (s s1 : St) (t1 : list Effect) (i : Z) :
  tab_id tab = Some i -> i <> 0%Z ->
  (i ∉ attachedTabIds s \/ mode <> None) ->
  getCrxApp env s = (s1, t1, inl tt) ->
  last (attach env tab mode s).1.2 = Some ActionEnable.
Proof.
  intros Hid Hi Hguard Hok. attach_open Hid Hi Hguard Hok;
    destruct (recorder_isHidden env), (show_ok env), (attach_ok env), mode,
      (setMode_ok env), (newPage_ok env); cbn; last_concrete.
Qed.

(** C3 (code defect): [getCrxApp()] is awaited before the [try], so when
    obtaining the session throws the [finally] never runs: with storage
    failing, [attach] of tab 1 disables the icon and rejects without ever
    re-enabling it. *)
Theorem attach_session_failure_icon_stays_disabled :
  attach env_storage_down (mkTab (Some 1%Z) 5) None initSt =
    (initSt, [SidePanelOpen 5; ActionDisable; StorageGet], inr StorageError).
Proof. vm_compute. reflexivity. Qed.

(** ** Concurrent session creation *)

(** One caller at a time: the second caller reuses the first session. *)
Example getCrxApp_sequential_callers :
  Concurrent.run [0; 0; 0; 1; 1] (Concurrent.init 2) =
    Concurrent.mkWorld (Some 0) 1 [Concurrent.Returned 0; Concurrent.Returned 0].
Proof. reflexivity. Qed.

(** C1 (code defect): the test [if (!crxAppPromise)] and the assignment are
    separated by [await chrome.storage.sync.get(...)], so two callers that
    both enter before the first read completes each call [crx.start()]: two
    sessions are started and the callers receive different handles. *)
Theorem getCrxApp_concurrent_double_start :
  Concurrent.run [0; 1; 0; 1; 0; 1] (Concurrent.init 2) =
    Concurrent.mkWorld (Some 1) 2 [Concurrent.Returned 0; Concurrent.Returned 1].
Proof. reflexivity. Qed.

(** * Further properties of background.ts *)

(** ** Indicator *)

(** On a navigation ([chrome.tabs.onUpdated]) of an attached tab,
    [changeAction(tabId)] makes the same host calls as an explicit call with
    the stored mode, and changes no state. *)
Theorem changeAction_reapply_current (s : St) (tabId : Z) (m : CrxMode) :
  tabId ∈ attachedTabIds s -> currentMode s = Some m ->
  changeAction tabId None s = (s, (changeAction tabId (Some m) s).1.2, inl tt).
Proof.
  intros Hin Hm. unfold changeAction; unfold_M; cbn.
  rewrite bool_decide_true by exact Hin. rewrite Hm.
  destruct m; reflexivity.
Qed.

Lemma changeAction_reapply_current_witness :
  (3%Z ∈ attachedTabIds (set_currentMode (Some MRecording) (set_attachedTabIds {[3%Z]} initSt)) /\
   currentMode (set_currentMode (Some MRecording) (set_attachedTabIds {[3%Z]} initSt)) = Some MRecording) /\
  changeAction 3 None (set_currentMode (Some MRecording) (set_attachedTabIds {[3%Z]} initSt)) =
    (set_currentMode (Some MRecording) (set_attachedTabIds {[3%Z]} initSt),
     (changeAction 3 (Some MRecording)
        (set_currentMode (Some MRecording) (set_attachedTabIds {[3%Z]} initSt))).1.2, inl tt).
Proof.
  assert (H1 : 3%Z ∈ attachedTabIds (set_currentMode (Some MRecording) (set_attachedTabIds {[3%Z]} initSt))).
  { cbn. set_solver. }
  split; [split; [exact H1 | reflexivity]|].
  apply changeAction_reapply_current; [exact H1 | reflexivity].
Defined.

(** The badge text set by [changeAction] (its second host call) is empty
    exactly when the resolved mode is undefined or a stopped mode, "REC" for
    a recording-family mode and "INS" otherwise; the call never rejects. *)
Theorem changeAction_badge_text (s : St) (tabId : Z) (mode : option CrxMode) :
  (changeAction tabId mode s).1.2 !! 1%nat =
    Some (SetBadgeText
      (match match mode with
             | Some m => Some m
             | None => if bool_decide (tabId ∈ attachedTabIds s)
                       then currentMode s else Some MDetached
             end with
       | Some m => if includes stoppedModes m then ""
                   else if includes recordingModes m then "REC" else "INS"
       | None => ""
       end) tabId) /\
  (changeAction tabId mode s).2 = inl tt.
Proof.
  unfold changeAction; unfold_M; cbn.
  destruct mode as [m|]; [destruct m; split; reflexivity|].
  destruct (bool_decide (tabId ∈ attachedTabIds s)); [|split; reflexivity].
  destruct (currentMode s) as [m|]; [destruct m|]; split; reflexivity.
Qed.

(** ** Attached / detached listeners *)

Lemma set_currentMode_twice (m m' : option CrxMode) (s : St) :
  set_currentMode m (set_currentMode m' s) = set_currentMode m s.
Proof. destruct s; reflexivity. Qed.

(** The 'detached' listener removes the tab from [attachedTabIds] and from
    [tabAttachTimes], keeps the stored mode, clears the tab's badge and
    never rejects. *)
Theorem on_detached_effect (env : Env) (tabId : Z) (s : St) :
  match on_detached env tabId s with
  | (s', tr, r) =>
      attachedTabIds s' = attachedTabIds s ∖ {[tabId]} /\
      tabAttachTimes s' = delete tabId (tabAttachTimes s) /\
      currentMode s' = currentMode s /\
      take 2 tr = [SetTitle "Record" tabId; SetBadgeText "" tabId] /\
      r = inl tt
  end.
Proof.
  unfold on_detached, changeAction; unfold_M; cbn.
  repeat split.
Qed.

(** The 'attached' listener adds the tab to [attachedTabIds] and stores the
    engine's mode (never 'detached' for the engine) as the current mode.
    When [chrome.tabs.get] resolves it ends with the "recorder_attached"
    event; when it rejects (tab already closed) the listener rejects right
    after the lookup, without the event. *)
Theorem on_attached_effect (env : Env) (tabId : Z) (s : St) :
  recorder_mode env <> MDetached ->
  match on_attached env tabId s with
  | (s', tr, r) =>
      attachedTabIds s' = {[tabId]} ∪ attachedTabIds s /\
      currentMode s' = Some (recorder_mode env) /\
      (tabs_get_ok env = true ->
         last tr = Some (Capture (RecorderAttached tabId)) /\ r = inl tt) /\
      (tabs_get_ok env = false ->
         last tr = Some (TabsGet tabId) /\ r = inr TabsGetError)
  end.
Proof.
  intros Hm. unfold on_attached; unfold_M; cbn.
  destruct (changeAction_shape tabId (Some (recorder_mode env))
              (set_attachedTabIds ({[tabId]} ∪ attachedTabIds s) s)) as [tr ->].
  cbn. rewrite bool_decide_false by exact Hm. cbn.
  destruct (tabs_get_ok env); cbn;
    (split; [reflexivity | split; [reflexivity | split]]); intros Hg;
    try discriminate; rewrite ?app_nil_r, last_app; split; reflexivity.
Qed.

Lemma on_attached_effect_witness :
  let env := mkEnv None None true true true MRecording true true true true 0 false in
  recorder_mode env <> MDetached /\
  match on_attached env 2 initSt with
  | (s', tr, r) =>
      attachedTabIds s' = {[2%Z]} ∪ attachedTabIds initSt /\
      currentMode s' = Some (recorder_mode env) /\
      (tabs_get_ok env = true ->
         last tr = Some (Capture (RecorderAttached 2)) /\ r = inl tt) /\
      (tabs_get_ok env = false ->
         last tr = Some (TabsGet 2) /\ r = inr TabsGetError)
  end.
Proof.
  cbv zeta.
  assert (H : recorder_mode (mkEnv None None true true true MRecording true true true true 0 false)
              <> MDetached) by discriminate.
  split; [exact H | exact (on_attached_effect _ 2 initSt H)].
Defined.

(** ** Mode-change listener *)

Lemma forM_changeAction (l : list Z) (m : CrxMode) (s : St) :
  m <> MDetached ->
  exists tr, forM_ (fun tabId => changeAction tabId (Some m)) l s =
    (match l with [] => s | _ :: _ => set_currentMode (Some m) s end, tr, inl tt).
Proof.
  intros Hm. revert s. induction l as [|t l IH]; intros s.
  - exists []. reflexivity.
  - cbn [forM_]. unfold mbind, M_bind, bind.
    destruct (changeAction_shape t (Some m) s) as [tr1 ->].
    rewrite bool_decide_false by exact Hm.
    destruct (IH (set_currentMode (Some m) s)) as [tr2 ->].
    exists (tr1 ++ tr2). destruct l; [reflexivity|].
    rewrite set_currentMode_twice. reflexivity.
Qed.

(** With at least one tab attached, the 'modechanged' listener has already
    stored the new mode when it reads [currentMode] for its telemetry: the
    event reports the new mode as [previous_mode] and neither
    "recording_started" nor "recording_stopped" is ever emitted. *)
Theorem on_modechanged_attached_no_recording_events (env : Env) (m : CrxMode) (s : St) :
  attachedTabIds s <> ∅ -> m <> MDetached ->
  match on_modechanged env m s with
  | (s', _, evs) =>
      currentMode s' = Some m /\
      lastModeChangeTime s' = Some (now env) /\
      exists d, evs = [ModeChanged m (Some m) d]
  end.
Proof.
  intros Hne Hm. unfold on_modechanged.
  destruct (forM_changeAction (elements (attachedTabIds s)) m s Hm) as [tr ->].
  destruct (elements (attachedTabIds s)) eqn:He.
  { apply elements_empty_inv, leibniz_equiv in He. contradiction. }
  cbn. split; [reflexivity|]. split; [reflexivity|].
  eexists. destruct m; reflexivity.
Qed.

Lemma on_modechanged_attached_no_recording_events_witness :
  (attachedTabIds (set_attachedTabIds {[1%Z]} initSt) <> ∅ /\ MRecording <> MDetached) /\
  match on_modechanged (env_at 10) MRecording (set_attachedTabIds {[1%Z]} initSt) with
  | (s', _, evs) =>
      currentMode s' = Some MRecording /\
      lastModeChangeTime s' = Some (now (env_at 10)) /\
      exists d, evs = [ModeChanged MRecording (Some MRecording) d]
  end.
Proof.
  assert (H1 : attachedTabIds (set_attachedTabIds {[1%Z]} initSt) <> ∅).
  { cbn. set_solver. }
  assert (H2 : MRecording <> MDetached) by discriminate.
  split; [split; [exact H1 | exact H2]|].
  exact (on_modechanged_attached_no_recording_events (env_at 10) MRecording _ H1 H2).
Defined.

(** With no tab attached, the 'modechanged' listener leaves the stored mode
    unchanged; a change from a non-recording stored mode to a
    recording-family mode emits "recording_started" once, and the reverse
    emits "recording_stopped" once. *)
Theorem on_modechanged_detached_recording_events (env : Env) (m : CrxMode) (s : St) :
  attachedTabIds s = ∅ ->
  match on_modechanged env m s with
  | (s', _, evs) =>
      currentMode s' = currentMode s /\
      (match currentMode s with Some c => includes recordingModes c | None => false end = false ->
       includes recordingModes m = true ->
       exists d, evs = [ModeChanged m (currentMode s) d; RecordingStarted (currentMode s)]) /\
      (match currentMode s with Some c => includes recordingModes c | None => false end = true ->
       includes recordingModes m = false ->
       exists d d', evs = [ModeChanged m (currentMode s) d; RecordingStopped m d'])
  end.
Proof.
  intros He. unfold on_modechanged. rewrite He, elements_empty. cbn.
  split; [reflexivity|]. split.
  - intros Hw Hr. rewrite Hw, Hr. eexists. reflexivity.
  - intros Hw Hr. rewrite Hw, Hr. do 2 eexists. reflexivity.
Qed.

Lemma on_modechanged_detached_recording_events_witness :
  attachedTabIds initSt = ∅ /\
  match on_modechanged (env_at 10) MRecording initSt with
  | (s', _, evs) =>
      currentMode s' = currentMode initSt /\
      (match currentMode initSt with Some c => includes recordingModes c | None => false end = false ->
       includes recordingModes MRecording = true ->
       exists d, evs = [ModeChanged MRecording (currentMode initSt) d;
                        RecordingStarted (currentMode initSt)]) /\
      (match currentMode initSt with Some c => includes recordingModes c | None => false end = true ->
       includes recordingModes MRecording = false ->
       exists d d', evs = [ModeChanged MRecording (currentMode initSt) d;
                           RecordingStopped MRecording d'])
  end.
Proof.
  split; [reflexivity|].
  exact (on_modechanged_detached_recording_events (env_at 10) MRecording initSt eq_refl).
Defined.

(** ** Settings sync listener with a sidepanel entry *)

(** A notification that carries a [sidepanel] entry completes normally: it
    applies the selector-attribute and language entries, and sets the
    sidepanel flag to the new value when it is defined. *)
Theorem onStorageChanged_with_sidepanel
    (ti tl : option (option string)) (nv : option bool) (s : St) :
  match onStorageChanged (mkChanges ti tl (Some nv)) s with
  | (s', _, r) =>
      r = inl tt /\
      sidepanel s' = default (sidepanel s) nv /\
      testIdAttribute s' = (match ti with Some v => v | None => testIdAttribute s end) /\
      language s' = (match tl with Some v => v | None => language s end)
  end.
Proof.
  unfold onStorageChanged, setTestIdAttributeName; unfold_M.
  destruct ti, tl, nv; cbn; repeat split.
Qed.

(** ** Session manager, one caller at a time *)

(** The outcome of the first engine start is memoised: once the settings
    were read and [crx.start()] was called, every later [getCrxApp] makes no
    call, changes nothing and repeats the first outcome (no retry after a
    failed start). *)
Theorem getCrxApp_outcome_memoised (env env' : Env) (s : St) :
  crxAppPromise s = None -> storage_get_ok env = true ->
  match getCrxApp env s with
  | (s1, tr, r) => In CrxStart tr /\ getCrxApp env' s1 = (s1, [], r)
  end.
Proof.
  intros Hp Hok. unfold getCrxApp, setTestIdAttributeName; unfold_M; cbn.
  rewrite Hp. cbn. rewrite Hok. cbn.
  destruct (start_ok env); cbn; [|split; [tauto | reflexivity]].
  destruct (negb (truthy (stored_testIdAttributeName env))); cbn;
  destruct (negb (truthy (language s)) && truthy (stored_targetLanguage env)); cbn;
    split; [tauto | reflexivity | tauto | reflexivity | tauto | reflexivity | tauto | reflexivity].
Qed.

Lemma getCrxApp_outcome_memoised_witness :
  (crxAppPromise initSt = None /\ storage_get_ok (env_at 0) = true) /\
  match getCrxApp (env_at 0) initSt with
  | (s1, tr, r) => In CrxStart tr /\ getCrxApp env_storage_down s1 = (s1, [], r)
  end.
Proof.
  split; [split; reflexivity|].
  exact (getCrxApp_outcome_memoised (env_at 0) env_storage_down initSt eq_refl eq_refl).
Defined.

(** A failed settings read leaves [crxAppPromise] unset and the state
    untouched, so the next call tries again and starts the engine. *)
Theorem getCrxApp_storage_failure_retried (env env' : Env) (s : St) :
  crxAppPromise s = None -> storage_get_ok env = false ->
  getCrxApp env s = (s, [StorageGet], inr StorageError) /\
  (storage_get_ok env' = true -> In CrxStart (getCrxApp env' s).1.2).
Proof.
  intros Hp Hko. split.
  - unfold getCrxApp; unfold_M; cbn. rewrite Hp. cbn. rewrite Hko. reflexivity.
  - intros Hok. pose proof (getCrxApp_outcome_memoised env' env' s Hp Hok) as H.
    destruct (getCrxApp env' s) as [[s1 tr] r]. exact (proj1 H).
Qed.

Lemma getCrxApp_storage_failure_retried_witness :
  (crxAppPromise initSt = None /\ storage_get_ok env_storage_down = false) /\
  getCrxApp env_storage_down initSt = (initSt, [StorageGet], inr StorageError) /\
  (storage_get_ok (env_at 0) = true -> In CrxStart (getCrxApp (env_at 0) initSt).1.2).
Proof.
  split; [split; reflexivity|].
  exact (getCrxApp_storage_failure_retried env_storage_down (env_at 0) initSt eq_refl eq_refl).
Defined.

(** The session start never replaces a target language that is already set
    (a non-empty string). *)
Theorem getCrxApp_keeps_language (env : Env) (s : St) :
  truthy (language s) = true ->
  language (getCrxApp env s).1.1 = language s.
Proof.
  intros Hl. unfold getCrxApp, setTestIdAttributeName; unfold_M; cbn.
  destruct (crxAppPromise s) as [[]|]; cbn; [reflexivity | reflexivity|].
  destruct (storage_get_ok env); cbn; [|reflexivity].
  destruct (start_ok env); cbn; [|reflexivity].
  destruct (negb (truthy (stored_testIdAttributeName env))); cbn;
    rewrite Hl; reflexivity.
Qed.

Lemma getCrxApp_keeps_language_witness :
  truthy (language (set_language (Some "java") initSt)) = true /\
  language (getCrxApp (env_with None (Some "python") 0) (set_language (Some "java") initSt)).1.1 =
    language (set_language (Some "java") initSt).
Proof.
  split; [reflexivity|].
  apply getCrxApp_keeps_language. reflexivity.
Defined.

(** ** Attach flow *)

Lemma attach_enable_after_session_witness :
  let t1 := [StorageGet; CrxStart; AddListener "hide"; AddListener "modechanged";
             AddListener "attached"; AddListener "detached"; SetTestIdAttribute None] in
  let s1 := set_crxAppPromise (Some Resolved) initSt in
  (tab_id (mkTab (Some 1%Z) 5) = Some 1%Z /\ 1%Z <> 0%Z /\
   (1%Z ∉ attachedTabIds initSt \/ @None CrxMode <> None) /\
   getCrxApp (env_at 0) initSt = (s1, t1, inl tt)) /\
  last (attach (env_at 0) (mkTab (Some 1%Z) 5) None initSt).1.2 = Some ActionEnable.
Proof.
  cbv zeta.
  assert (H : 1%Z ∉ attachedTabIds initSt) by (cbn; set_solver).
  assert (Hok : getCrxApp (env_at 0) initSt =
                (set_crxAppPromise (Some Resolved) initSt,
                 [StorageGet; CrxStart; AddListener "hide"; AddListener "modechanged";
                  AddListener "attached"; AddListener "detached"; SetTestIdAttribute None],
                 inl tt)) by (vm_compute; reflexivity).
  split; [split; [reflexivity | split; [discriminate | split; [left; exact H | exact Hok]]]|].
  exact (attach_enable_after_session (env_at 0) (mkTab (Some 1%Z) 5) None _ _ _ 1
           eq_refl ltac:(discriminate) (or_introl H) Hok).
Defined.







(** ** Keyboard commands *)



(** ** Save flow *)



(** ** Script telemetry *)

Lemma split_on_length (c : ascii) (s : string) :
  length (split_on c s) = S (count_char c s).
Proof.
  induction s as [|a s IH]; [reflexivity|]. cbn.
  destruct (bool_decide (a = c)); cbn.
  - rewrite IH. reflexivity.
  - destruct (split_on c s) as [|h t]; cbn in *; [discriminate|].
    exact IH.
Qed.

(** [linesOfCode] is one more than the number of newlines: never 0, and 1
    for an empty script. *)
Theorem linesOfCode_newlines (code : string) :
  linesOfCode code = S (count_char "010"%char code).
Proof. apply split_on_length. Qed.

Lemma split_on_last (c : ascii) (s : string) :
  exists e, last (split_on c s) = Some e /\ count_char c e = 0 /\
    (exists pre, s = String.append pre e) /\ (count_char c s = 0 -> e = s).
Proof.
  induction s as [|a s IH].
  - exists ""%string. split; [reflexivity|]. split; [reflexivity|].
    split; [exists ""%string; reflexivity | reflexivity].
  - destruct IH as (e & He & Hc & (pre & Hpre) & Hall).
    pose proof (split_on_length c s) as Hlen.
    cbn [split_on count_char].
    destruct (bool_decide (a = c)) eqn:Ha.
    + exists e. destruct (split_on c s) as [|h t]; [discriminate|].
      split; [exact He|]. split; [exact Hc|].
      split; [exists (String a pre); rewrite Hpre; reflexivity|].
      intros H; discriminate H.
    + destruct (split_on c s) as [|h [|h' t]]; [discriminate| |].
      * cbn in Hlen. injection Hlen as Hz. symmetry in Hz.
        specialize (Hall Hz). subst e. cbn in He. injection He as ->.
        exists (String a s). split; [reflexivity|].
        split; [cbn; rewrite Ha; exact Hz|].
        split; [exists ""%string; reflexivity | reflexivity].
      * exists e. split; [exact He|]. split; [exact Hc|].
        split; [exists (String a pre); rewrite Hpre; reflexivity|].
        intros H. cbn in H. rewrite H in Hlen.
        cbn in Hlen. lia.
Qed.

(** [fileExtension] is a dot-free suffix of the suggested name (the part
    after its last '.'), and the whole name when it has no '.'. *)
Theorem fileExtension_suffix (suggestedName : string) :
  count_char "."%char (fileExtension suggestedName) = 0 /\
  (exists pre, suggestedName = String.append pre (fileExtension suggestedName)) /\
  (count_char "."%char suggestedName = 0 -> fileExtension suggestedName = suggestedName).
Proof.
  unfold fileExtension.
  destruct (split_on_last "."%char suggestedName) as (e & -> & He).
  exact He.
Qed.

(** ** Cookie filter, further *)

(** The filter depends only on which URLs were collected: duplicates (which
    [new Set(...)] removes) and order make no difference. *)
Theorem filterCookies_same_urls (l1 l2 : list URL) (allCookies : list Cookie) :
  (forall u, In u l1 <-> In u l2) ->
  filterCookies l1 allCookies = filterCookies l2 allCookies.
Proof.
  intros Hl. unfold filterCookies. apply filter_ext. intros c.
  destruct l1 as [|u1 r1], l2 as [|u2 r2].
  - reflexivity.
  - exfalso. apply (proj2 (Hl u2)). left. reflexivity.
  - exfalso. apply (proj1 (Hl u1)). left. reflexivity.
  - apply eq_bool_prop_intro. rewrite !Is_true_true, !urlLoop_spec.
    split; intros (u & Hu & Hm); exists u; split; [apply Hl | | apply Hl |]; assumption.
Qed.

Lemma filterCookies_same_urls_witness :
  (forall u, In u [example_url; example_url] <-> In u [example_url]) /\
  filterCookies [example_url; example_url] [cookie_root_secure; cookie_other] =
    filterCookies [example_url] [cookie_root_secure; cookie_other].
Proof.
  assert (H : forall u, In u [example_url; example_url] <-> In u [example_url]).
  { intros u. cbn. tauto. }
  split; [exact H|]. apply filterCookies_same_urls. exact H.
Defined.

Lemma dot_suffix (h d : string) :
  (exists pre, String "."%char h = String.append pre (String "."%char d)) <->
  h = d \/ exists p, h = String.append p (String "."%char d).
Proof.
  split.
  - intros [[|x pre] Hpre].
    + left. cbv [String.append] in Hpre. congruence.
    + right. exists pre. change (String "."%char h = String x (String.append pre (String "."%char d))) in Hpre.
      congruence.
  - intros [-> | [p ->]].
    + exists ""%string. reflexivity.
    + exists (String "."%char p). reflexivity.
Qed.

(** Domain rule of the filter for one URL: a cookie whose domain is [d] or
    [.d] ([d] not itself starting with a dot) matches a hostname exactly when
    the hostname is [d] or ends with [.d], so "example.com" does not match
    "badexample.com"; the path and secure checks come on top. *)
Theorem urlLoop_domain_rule (c : Cookie) (u : URL) (d : string) :
  (domain c = d /\ startsWith d "." = false) \/ domain c = String "."%char d ->
  urlLoop c [u] = true <->
  (hostname u = d \/ exists p, hostname u = String.append p (String "."%char d)) /\
  (exists rest, pathname u = String.append (path c) rest) /\
  (secure c = true -> protocol u = "https:" \/ hostname u = "localhost").
Proof.
  intros Hd.
  assert (Hdot : dotted (domain c) = String "."%char d).
  { destruct Hd as [[-> Hs] | ->]; [|reflexivity].
    rewrite <- dotted_normalisation, Hs. reflexivity. }
  rewrite urlLoop_spec. unfold spec_cookie_matches. rewrite Hdot, <- dot_suffix.
  split.
  - intros (v & [<- | []] & Hm). exact Hm.
  - intros Hm. exists u. split; [left; reflexivity | exact Hm].
Qed.

Lemma urlLoop_domain_rule_witness :
  let c := mkCookie "sid" "example.com" "/" false in
  let u := mkURL "https:" "badexample.com" "/" in
  ((domain c = "example.com" /\ startsWith "example.com" "." = false) \/
   domain c = String "."%char "example.com") /\
  (urlLoop c [u] = true <->
   (hostname u = "example.com" \/
    exists p, hostname u = String.append p (String "."%char "example.com")) /\
   (exists rest, pathname u = String.append (path c) rest) /\
   (secure c = true -> protocol u = "https:" \/ hostname u = "localhost")).
Proof.
  cbv zeta.
  assert (H : (domain (mkCookie "sid" "example.com" "/" false) = "example.com" /\
               startsWith "example.com" "." = false) \/
              domain (mkCookie "sid" "example.com" "/" false) = String "."%char "example.com").
  { left. split; reflexivity. }
  split; [exact H|]. exact (urlLoop_domain_rule _ _ "example.com" H).
Defined.

(** ** Concurrent callers of [getCrxApp], invariants *)

Module ConcurrentProps.
Import Concurrent.

(** Callers that may still call [crx.start()]. *)
Definition may_start (pc : Pc) : nat :=
  match pc with AtStart | AwaitingSettings => 1 | _ => 0 end.

Lemma sum_insert (f : Pc -> nat) (l : list Pc) (i : nat) (pc pc' : Pc) :
  l !! i = Some pc ->
  sum_list_with f (<[i := pc']> l) + f pc = sum_list_with f l + f pc'.
Proof.
  revert i. induction l as [|x l IH]; intros [|i] Hi; cbn in Hi; try discriminate.
  - injection Hi as ->. change (<[0%nat:=pc']> (pc :: l)) with (pc' :: l).
    cbn [sum_list_with]. lia.
  - specialize (IH i Hi). change (<[S i:=pc']> (x :: l)) with (x :: <[i:=pc']> l).
    cbn [sum_list_with]. lia.
Qed.

Lemma resume_measure (p : option nat) (n : nat) (pc : Pc) :
  match resume p n pc with
  | (_, n', pc') => n' + may_start pc' <= n + may_start pc
  end.
Proof. destruct pc; [destruct p| | |]; cbn; lia. Qed.

Lemma run_measure (schedule : list nat) (w : World) :
  starts (run schedule w) + sum_list_with may_start (callers (run schedule w)) <=
  starts w + sum_list_with may_start (callers w).
Proof.
  revert w. induction schedule as [|i rest IH]; intros w; cbn; [lia|].
  destruct (callers w !! i) as [pc|] eqn:Hi; [|apply IH].
  pose proof (resume_measure (crxAppPromise w) (starts w) pc) as Hm.
  destruct (resume (crxAppPromise w) (starts w) pc) as [[p n] pc'].
  specialize (IH (mkWorld p n (<[i := pc']> (callers w)))). cbn in IH.
  pose proof (sum_insert may_start (callers w) i pc pc' Hi). lia.
Qed.

(** Whatever the interleaving, [k] concurrent callers start at most [k]
    engine sessions: each call of [getCrxApp] calls [crx.start()] at most
    once. *)
Theorem run_starts_bounded (schedule : list nat) (k : nat) :
  starts (run schedule (init k)) <= k.
Proof.
  assert (Hk : sum_list_with may_start (callers (init k)) = k).
  { cbn. induction k as [|k IH]; cbn; [reflexivity|]. rewrite IH. reflexivity. }
  pose proof (run_measure schedule (init k)) as H.
  rewrite Hk in H. cbn in H. lia.
Qed.

(** Caller states compatible with a single session [h]. *)
Definition settled (h : nat) (pc : Pc) : Prop :=
  pc = AtStart \/ pc = AwaitingSession h \/ pc = Returned h.

(** Once [crxAppPromise] holds session [h] and no caller is between its
    test and its assignment, no further session is started, the promise
    is never replaced and every caller that returns receives [h]. *)
Theorem run_settled (schedule : list nat) (w : World) (h : nat) :
  crxAppPromise w = Some h -> Forall (settled h) (callers w) ->
  crxAppPromise (run schedule w) = Some h /\ starts (run schedule w) = starts w /\
  Forall (settled h) (callers (run schedule w)).
Proof.
  revert w. induction schedule as [|i rest IH]; intros w Hp Hall; cbn; [auto|].
  destruct (callers w !! i) as [pc|] eqn:Hi; [|apply IH; assumption].
  pose proof (proj1 (Forall_lookup (settled h) (callers w)) Hall i pc Hi) as Hpc.
  rewrite Hp.
  destruct Hpc as [-> | [-> | ->]]; cbn;
    (match goal with |- context [run rest ?w'] => destruct (IH w') as (H1 & H2 & H3) end;
     [ reflexivity
     | apply Forall_insert; [exact Hall | unfold settled; auto]
     | split; [exact H1 | split; [exact H2 | exact H3]] ]).
Qed.

Lemma run_settled_witness :
  (crxAppPromise (mkWorld (Some 0) 1 [Returned 0; AtStart]) = Some 0 /\
   Forall (settled 0) (callers (mkWorld (Some 0) 1 [Returned 0; AtStart]))) /\
  (crxAppPromise (run [1; 1] (mkWorld (Some 0) 1 [Returned 0; AtStart])) = Some 0 /\
   starts (run [1; 1] (mkWorld (Some 0) 1 [Returned 0; AtStart])) =
     starts (mkWorld (Some 0) 1 [Returned 0; AtStart]) /\
   Forall (settled 0) (callers (run [1; 1] (mkWorld (Some 0) 1 [Returned 0; AtStart])))).
Proof.
  assert (H : Forall (settled 0) (callers (mkWorld (Some 0) 1 [Returned 0; AtStart]))).
  { cbn. constructor; [unfold settled; auto|].
    constructor; [unfold settled; auto|]. constructor. }
  split; [split; [reflexivity | exact H]|].
  apply run_settled; [reflexivity | exact H].
Defined.

End ConcurrentProps.
